(** * Teleop position-target arbitration of the TalonSRX closed-loop example

    A shallow embedding of [src/main/cpp/Robot.cpp]: the [Robot] class, its
    [RobotInit] and its periodic [TeleopPeriodic], with the C++ [double]s as
    IEEE binary64 values (Rocq's primitive floats, round to nearest even), the
    C++ [int]s as [Z], and the calls into the motor controller and to [printf]
    as a list of events returned by each function. *)

From Stdlib Require Import ZArith Bool List String Lia.
From Stdlib Require Import Uint63 Floats.
Import ListNotations.

Set Warnings "-inexact-float".

Open Scope bool_scope.

(** ** Data *)

Module Cpp.

(** The C++ conversion of an [int] to a [double]; exact on the 32-bit range
    of [int]. *)
Definition int_to_double (z : Z) : float :=
  if (z <? 0)%Z then (- of_uint63 (Uint63.of_Z (- z)))%float
  else of_uint63 (Uint63.of_Z z).

(** Modelled from the spec: line 117 calls an unqualified [abs] on a [double];
    the overload it resolves to is declared by headers that are not part of
    the sources at hand. The spec reads it as the absolute value of the axis
    ("if abs(axisY) <= 0.01"), which is the binary64 absolute value here. *)
Definition abs (x : float) : float := PrimFloat.abs x.

(** [a > b] on doubles. *)
Definition gt (a b : float) : bool := (b <? a)%float.

(** The C++ conversion of a [double] to an [int]: the fraction is dropped,
    rounding toward zero. C++ leaves the conversion of a NaN, of an infinity
    and of a value outside the range of [int] undefined; the first two give
    0 here. *)
Definition double_to_int (x : float) : Z :=
  match Prim2SF x with
  | S754_finite s m e =>
      let v := match e with
               | Zneg p => Z.shiftr (Zpos m) (Zpos p)
               | _ => Z.shiftl (Zpos m) e
               end in
      if s then (- v)%Z else v
  | _ => 0%Z
  end.

End Cpp.

(** The control modes of the motor controller; the program names [Position]
    only, a controller that was never commanded reports the other one. *)
Inductive ControlMode : Set :=
| PercentOutput
| Position.

Definition ControlMode_eqb (a b : ControlMode) : bool :=
  match a, b with
  | PercentOutput, PercentOutput | Position, Position => true
  | _, _ => false
  end.

(** What the handle [_talon_right] remembers of the last [Set] call. *)
Record TalonSRX : Set := mkTalon {
  controlMode : ControlMode;
  demand : float
}.

(** A fragment appended to the line [_sb]: literal text, or a number handed
    to [std::to_string], whose rendering is the C++ library's. *)
Inductive Piece : Set :=
| Txt (s : string)
| Dbl (d : float)
| Int (n : Z).

(** What one tick reads from outside the object: the gamepad through [_joy]
    and the feedback of the controller through [_talon_right]. The sensor
    position is read twice in a tick, at line 91 for the line to print and at
    line 118 for the window test. *)
Record Sample : Set := mkSample {
  rawAxis1 : float;
  rawButton1 : bool;
  rawButton2 : bool;
  rawButton3 : bool;
  rawButton4 : bool;
  motorOutputPercent : float;
  sensorPositionPrinted : Z;
  sensorPosition : Z;
  closedLoopError : Z
}.

(** The member variables of the class. [_loops] is an [int]; it stays within
    0..9 between ticks, so its arithmetic is that of [Z]. *)
Record Robot : Set := mkRobot {
  _talon_right : TalonSRX;
  _sb : list Piece;
  _loops : Z;
  _deadBand : Z;
  _lastButton1 : bool;
  _lastButton2 : bool;
  _lastButton3 : bool;
  targetPositionRotations : float
}.

(** What a function does to the outside: a configuration call on the
    controller, a [Set] on it, a printed line. *)
Inductive Event : Set :=
| TalonConfig (call : string) (args : list Piece)
| TalonSet (mode : ControlMode) (value : float)
| Printf (line : list Piece).

(** ** The program *)

(** [_talon_right->Set(mode, value)]. *)
Definition Talon_Set (mode : ControlMode) (value : float) (t : TalonSRX)
  : TalonSRX * list Event :=
  (mkTalon mode value, [TalonSet mode value]).

(** [_talon_right->GetControlMode()]. *)
Definition GetControlMode (t : TalonSRX) : ControlMode := controlMode t.

(** The object as its member initialisers leave it. [targetPositionRotations]
    has no initialiser: [t0] stands for whatever the field holds. [_deadBand]
    is an [int] initialised from [.1], which is 0. *)
Definition Robot_new (t0 : float) : Robot :=
  {| _talon_right := mkTalon PercentOutput 0%float;
     _sb := [];
     _loops := 0;
     _deadBand := 0;
     _lastButton1 := false;
     _lastButton2 := false;
     _lastButton3 := false;
     targetPositionRotations := t0 |}.

(** [RobotInit]; [kPIDLoopIdx] and [kTimeoutMs] come from [Constants.h]. *)
Definition RobotInit (kPIDLoopIdx kTimeoutMs : Z) (r : Robot)
  : Robot * list Event :=
  let pid := Int kPIDLoopIdx in
  let tmo := Int kTimeoutMs in
  (r,
   [ TalonConfig "SetSelectedSensorPosition" [Int 0; pid; tmo];
     TalonConfig "ConfigSelectedFeedbackSensor" [Txt "QuadEncoder"; pid; tmo];
     TalonConfig "SetSensorPhase" [Txt "false"];
     TalonConfig "SetInverted" [Txt "false"];
     TalonConfig "ConfigNominalOutputForward" [Dbl 0%float; tmo];
     TalonConfig "ConfigNominalOutputReverse" [Dbl 0%float; tmo];
     TalonConfig "ConfigPeakOutputForward" [Dbl 1%float; tmo];
     TalonConfig "ConfigPeakOutputReverse" [Dbl (-1)%float; tmo];
     TalonConfig "Config_kF" [pid; Dbl 0.0%float; tmo];
     TalonConfig "Config_kP" [pid; Dbl 20.0%float; tmo];
     TalonConfig "Config_kI" [pid; Dbl 0.001%float; tmo];
     TalonConfig "Config_kD" [pid; Dbl 200.0%float; tmo];
     TalonConfig "Config_IntegralZone" [pid; Int 50; tmo];
     TalonConfig "ConfigNeutralDeadband"
       [Dbl (Cpp.int_to_double (_deadBand r)); tmo];
     TalonConfig "ConfigClosedloopRamp" [Dbl 0.01%float; tmo] ]).

(** [double leftYstick = _joy->GetRawAxis(1) * -1;] *)
Definition leftYstick (hw : Sample) : float := (rawAxis1 hw * (-1))%float.

(** Lines 94 to 128: the [if]/[else if] chain that picks the target and
    commands the controller. Returns the new [targetPositionRotations], the
    controller handle and the [Set] calls made. *)
Definition servo (hw : Sample) (r : Robot) : float * TalonSRX * list Event :=
  let button1 := rawButton1 hw in
  let button2 := rawButton2 hw in
  let button3 := rawButton3 hw in
  let target := targetPositionRotations r in
  let talon := _talon_right r in
  if negb (_lastButton1 r) && button1 then
    let target := (5.0 * 80 * 12)%float in
    let '(talon, ev) := Talon_Set Position target talon in
    (target, talon, ev)
  else if negb (_lastButton2 r) && button2 then
    let target := (10.0 * 80 * 12)%float in
    let '(talon, ev) := Talon_Set Position target talon in
    (target, talon, ev)
  else if negb (_lastButton3 r) && button3 then
    let target := (15.0 * 80 * 12)%float in
    let '(talon, ev) := Talon_Set Position target talon in
    (target, talon, ev)
  else
    if Cpp.gt (Cpp.abs (leftYstick hw)) 0.01 then
      let currentPos := Cpp.int_to_double (sensorPosition hw) in
      if Cpp.gt (target - 50)%float currentPos
         || Cpp.gt currentPos (target + 50)%float then
        let target := (leftYstick hw * 150 + currentPos)%float in
        let '(talon, ev) := Talon_Set Position target talon in
        (target, talon, ev)
      else
        let target := (leftYstick hw * 150 + target)%float in
        let '(talon, ev) := Talon_Set Position target talon in
        (target, talon, ev)
    else (target, talon, []).

(** [TeleopPeriodic], one tick. *)
Definition TeleopPeriodic (hw : Sample) (r : Robot) : Robot * list Event :=
  let motorOutputRight := motorOutputPercent hw in
  let button1 := rawButton1 hw in
  let button2 := rawButton2 hw in
  let button3 := rawButton3 hw in
  let button4 := rawButton4 hw in
  (* prepare line to print *)
  let sb := _sb r ++ [Txt "	out right: "; Dbl motorOutputRight;
                      Txt "	pos right: "; Int (sensorPositionPrinted hw)] in
  let '(target, talon, ev_set) := servo hw r in
  (* if the controller is in position closed-loop, print some more *)
  let sb :=
    if ControlMode_eqb (GetControlMode talon) Position
    then sb ++ [Txt "	errNative: "; Int (closedLoopError hw);
                Txt "	trg: "; Dbl target]
    else sb in
  (* print every ten loops *)
  let loops := (_loops r + 1)%Z in
  let '(loops, ev_print) :=
    if (10 <=? loops)%Z then (0%Z, [Printf sb]) else (loops, []) in
  ({| _talon_right := talon;
      _sb := [];
      _loops := loops;
      _deadBand := _deadBand r;
      _lastButton1 := button1;
      _lastButton2 := button2;
      _lastButton3 := button3;
      targetPositionRotations := target |},
   ev_set ++ ev_print).

(** [TeleopPeriodic] called once per sample, in order; the events of each
    tick are kept apart. *)
Fixpoint run (hws : list Sample) (r : Robot) : Robot * list (list Event) :=
  match hws with
  | [] => (r, [])
  | hw :: rest =>
      let '(r1, ev) := TeleopPeriodic hw r in
      let '(r2, evs) := run rest r1 in
      (r2, ev :: evs)
  end.

(** ** Vocabulary of the specification *)

(** A button is rising when it is pressed now and its stored flag is not. *)
Definition risingEdge (last now : bool) : bool := negb last && now.

(** Some preset button has a rising edge in this tick. *)
Definition presetEdge (hw : Sample) (r : Robot) : bool :=
  risingEdge (_lastButton1 r) (rawButton1 hw)
  || risingEdge (_lastButton2 r) (rawButton2 hw)
  || risingEdge (_lastButton3 r) (rawButton3 hw).

(** The position commands among the events of a tick, in order. *)
Definition commands (evs : list Event) : list float :=
  flat_map (fun e => match e with
                     | TalonSet Position v => [v]
                     | _ => []
                     end) evs.

(** The telemetry lines among the events of a tick. *)
Definition lines (evs : list Event) : list (list Piece) :=
  flat_map (fun e => match e with Printf l => [l] | _ => [] end) evs.

(** The position is strictly outside the window of 50 counts around the
    target: [target - 50 > currentPos] or [currentPos > target + 50]. *)
Definition outsideWindow (target : float) (currentPos : Z) : bool :=
  Cpp.gt (target - 50)%float (Cpp.int_to_double currentPos)
  || Cpp.gt (Cpp.int_to_double currentPos) (target + 50)%float.

(** The part of the object that the arbitration owns. *)
Record ArbiterState : Set := mkArbiter {
  targetPosition : float;
  prevButton1 : bool;
  prevButton2 : bool;
  prevButton3 : bool
}.

Definition arbiterState (r : Robot) : ArbiterState :=
  {| targetPosition := targetPositionRotations r;
     prevButton1 := _lastButton1 r;
     prevButton2 := _lastButton2 r;
     prevButton3 := _lastButton3 r |}.

(** Two samples that differ at most in button 4. *)
Definition sameButButton4 (a b : Sample) : Prop :=
  rawAxis1 a = rawAxis1 b /\
  rawButton1 a = rawButton1 b /\
  rawButton2 a = rawButton2 b /\
  rawButton3 a = rawButton3 b /\
  motorOutputPercent a = motorOutputPercent b /\
  sensorPositionPrinted a = sensorPositionPrinted b /\
  sensorPosition a = sensorPosition b /\
  closedLoopError a = closedLoopError b.

(** The two fragments every line starts with, and the two more of a
    controller in position mode. *)
Definition lineHead (hw : Sample) : list Piece :=
  [Txt "	out right: "; Dbl (motorOutputPercent hw);
   Txt "	pos right: "; Int (sensorPositionPrinted hw)].

Definition lineServo (hw : Sample) (target : float) : list Piece :=
  [Txt "	errNative: "; Int (closedLoopError hw); Txt "	trg: "; Dbl target].

(** ** Concrete ticks used to exercise the statements *)

Definition released (axis : float) (pos : Z) : Sample :=
  {| rawAxis1 := axis;
     rawButton1 := false; rawButton2 := false;
     rawButton3 := false; rawButton4 := false;
     motorOutputPercent := 0%float;
     sensorPositionPrinted := pos;
     sensorPosition := pos;
     closedLoopError := 0 |}.

Definition pressed (b1 b2 b3 b4 : bool) (s : Sample) : Sample :=
  {| rawAxis1 := rawAxis1 s;
     rawButton1 := b1; rawButton2 := b2; rawButton3 := b3; rawButton4 := b4;
     motorOutputPercent := motorOutputPercent s;
     sensorPositionPrinted := sensorPositionPrinted s;
     sensorPosition := sensorPosition s;
     closedLoopError := closedLoopError s |}.

(** ** Vocabulary for runs *)

(** The position commands and the printed lines of a whole run, in order. *)
Definition allCommands (evss : list (list Event)) : list float :=
  List.concat (map commands evss).

Definition allLines (evss : list (list Event)) : list (list Piece) :=
  List.concat (map lines evss).

(** No preset button is pressed in the sample. *)
Definition noPreset (hw : Sample) : bool :=
  negb (rawButton1 hw) && negb (rawButton2 hw) && negb (rawButton3 hw).

(** No preset button is pressed and the stick does not pass the test of
    line 117. *)
Definition idleSample (hw : Sample) : bool :=
  noPreset hw && negb (Cpp.gt (Cpp.abs (leftYstick hw)) 0.01).

(** Two samples with the same axis and the same feedback of the controller;
    the buttons may differ. *)
Definition sameReadings (a b : Sample) : Prop :=
  rawAxis1 a = rawAxis1 b /\
  motorOutputPercent a = motorOutputPercent b /\
  sensorPositionPrinted a = sensorPositionPrinted b /\
  sensorPosition a = sensorPosition b /\
  closedLoopError a = closedLoopError b.

(** The events one tick may produce: at most one [Set], in position mode,
    then at most one printed line. *)
Definition tickShape (evs : list Event) : Prop :=
  exists (sets : list float) (prints : list (list Piece)),
    evs = map (TalonSet Position) sets ++ map Printf prints /\
    (List.length sets <= 1)%nat /\ (List.length prints <= 1)%nat.

(** ** The deadband on binary64 values *)

Section Deadband.

Local Open Scope float_scope.

Local Ltac sf_trivial := intros; first [ reflexivity | discriminate ].
Local Ltac sf_step := cbv beta iota delta [CompOpp].
Local Ltac sf_const x :=
  let c := fresh "c" in set (c := Prim2SF x); vm_compute in c; subst c.

Lemma compare_cont_Eq_antisym (p q : positive) :
  Pos.compare_cont Eq q p = CompOpp (Pos.compare_cont Eq p q).
Proof. rewrite Pos.compare_cont_antisym. reflexivity. Qed.

(** An axis strictly between -0.01 and 0.01 does not pass the test of
    line 117. *)
Lemma deadband_open (y : float) :
  (-0.01 <? y) = true -> (y <? 0.01) = true ->
  Cpp.gt (Cpp.abs y) 0.01 = false.
Proof.
  unfold Cpp.gt, Cpp.abs. rewrite !ltb_spec, abs_spec.
  sf_const 0.01. sf_const (-0.01).
  destruct (Prim2SF y) as [s|s| |s m e]; try (destruct s);
    unfold SFltb, SFcompare, SFabs; try sf_trivial.
  - destruct (-59 ?= e)%Z; try sf_trivial.
    destruct (Pos.compare_cont Eq 5764607523034235 m); sf_step; sf_trivial.
  - intros _. rewrite (Z.compare_antisym e (-59)%Z).
    destruct (e ?= -59)%Z; sf_step; try sf_trivial.
    rewrite (compare_cont_Eq_antisym m 5764607523034235).
    destruct (Pos.compare_cont Eq m 5764607523034235); sf_step; sf_trivial.
Qed.

(** Neither does an axis at zero, of either sign. *)
Lemma deadband_zero (y : float) :
  is_zero y = true -> Cpp.gt (Cpp.abs y) 0.01 = false.
Proof.
  unfold is_zero, Cpp.gt, Cpp.abs. rewrite eqb_spec, ltb_spec, abs_spec.
  sf_const 0.01. sf_const zero.
  destruct (Prim2SF y) as [s|s| |s m e]; try (destruct s);
    unfold SFltb, SFeqb, SFcompare, SFabs; sf_trivial.
Qed.

End Deadband.

(** ** One tick, field by field *)

Section Tick.

Variables (hw : Sample) (r : Robot).

Lemma tick_target :
  targetPositionRotations (fst (TeleopPeriodic hw r)) = fst (fst (servo hw r)).
Proof.
  unfold TeleopPeriodic. destruct (servo hw r) as [[t tl] ev].
  destruct (10 <=? _loops r + 1)%Z; reflexivity.
Qed.

Lemma tick_talon :
  _talon_right (fst (TeleopPeriodic hw r)) = snd (fst (servo hw r)).
Proof.
  unfold TeleopPeriodic. destruct (servo hw r) as [[t tl] ev].
  destruct (10 <=? _loops r + 1)%Z; reflexivity.
Qed.

Lemma tick_lastButtons :
  _lastButton1 (fst (TeleopPeriodic hw r)) = rawButton1 hw /\
  _lastButton2 (fst (TeleopPeriodic hw r)) = rawButton2 hw /\
  _lastButton3 (fst (TeleopPeriodic hw r)) = rawButton3 hw.
Proof.
  unfold TeleopPeriodic. destruct (servo hw r) as [[t tl] ev].
  destruct (10 <=? _loops r + 1)%Z; repeat split.
Qed.

Lemma tick_loops :
  _loops (fst (TeleopPeriodic hw r))
  = if (10 <=? _loops r + 1)%Z then 0%Z else (_loops r + 1)%Z.
Proof.
  unfold TeleopPeriodic. destruct (servo hw r) as [[t tl] ev].
  destruct (10 <=? _loops r + 1)%Z; reflexivity.
Qed.

Lemma tick_sb : _sb (fst (TeleopPeriodic hw r)) = [].
Proof.
  unfold TeleopPeriodic. destruct (servo hw r) as [[t tl] ev].
  destruct (10 <=? _loops r + 1)%Z; reflexivity.
Qed.

Lemma commands_app (a b : list Event) :
  commands (a ++ b) = commands a ++ commands b.
Proof. unfold commands. apply flat_map_app. Qed.

Lemma lines_app (a b : list Event) : lines (a ++ b) = lines a ++ lines b.
Proof. unfold lines. apply flat_map_app. Qed.

(** [servo] makes no [printf]. *)
Lemma servo_lines : lines (snd (servo hw r)) = [].
Proof.
  unfold servo.
  repeat match goal with
         | |- context [if ?c then _ else _] => destruct c
         end; reflexivity.
Qed.

Lemma tick_commands :
  commands (snd (TeleopPeriodic hw r)) = commands (snd (servo hw r)).
Proof.
  unfold TeleopPeriodic. destruct (servo hw r) as [[t tl] ev].
  destruct (10 <=? _loops r + 1)%Z; cbv [snd]; rewrite commands_app;
    cbv [commands flat_map app]; apply app_nil_r.
Qed.

Lemma tick_lines :
  lines (snd (TeleopPeriodic hw r))
  = if (10 <=? _loops r + 1)%Z
    then [ _sb r ++ lineHead hw
           ++ (if ControlMode_eqb (GetControlMode (snd (fst (servo hw r))))
                                  Position
               then lineServo hw (fst (fst (servo hw r))) else []) ]
    else [].
Proof.
  pose proof servo_lines as L.
  unfold TeleopPeriodic. destruct (servo hw r) as [[t tl] ev].
  cbv [fst snd] in *.
  destruct (10 <=? _loops r + 1)%Z; cbv [snd]; rewrite lines_app, L.
  - destruct (ControlMode_eqb (GetControlMode tl) Position);
      unfold lines, lineHead, lineServo; simpl;
      rewrite ?app_nil_r, <- ?app_assoc; reflexivity.
  - reflexivity.
Qed.

(** The four ways through the chain of line 94 to 128. *)
Lemma servo_button1 :
  risingEdge (_lastButton1 r) (rawButton1 hw) = true ->
  servo hw r = (4800%float, mkTalon Position 4800, [TalonSet Position 4800]).
Proof. unfold servo, risingEdge. intros ->. reflexivity. Qed.

Lemma servo_button2 :
  risingEdge (_lastButton1 r) (rawButton1 hw) = false ->
  risingEdge (_lastButton2 r) (rawButton2 hw) = true ->
  servo hw r = (9600%float, mkTalon Position 9600, [TalonSet Position 9600]).
Proof. unfold servo, risingEdge. intros -> ->. reflexivity. Qed.

Lemma servo_button3 :
  risingEdge (_lastButton1 r) (rawButton1 hw) = false ->
  risingEdge (_lastButton2 r) (rawButton2 hw) = false ->
  risingEdge (_lastButton3 r) (rawButton3 hw) = true ->
  servo hw r
  = (14400%float, mkTalon Position 14400, [TalonSet Position 14400]).
Proof. unfold servo, risingEdge. intros -> -> ->. reflexivity. Qed.

Lemma presetEdge_false :
  presetEdge hw r = false ->
  risingEdge (_lastButton1 r) (rawButton1 hw) = false /\
  risingEdge (_lastButton2 r) (rawButton2 hw) = false /\
  risingEdge (_lastButton3 r) (rawButton3 hw) = false.
Proof.
  unfold presetEdge. intros H.
  apply orb_false_iff in H. destruct H as [H H3].
  apply orb_false_iff in H. destruct H as [H1 H2]. auto.
Qed.

Lemma servo_joystick :
  presetEdge hw r = false ->
  servo hw r
  = if Cpp.gt (Cpp.abs (leftYstick hw)) 0.01 then
      let t := if outsideWindow (targetPositionRotations r) (sensorPosition hw)
               then (leftYstick hw * 150
                     + Cpp.int_to_double (sensorPosition hw))%float
               else (leftYstick hw * 150 + targetPositionRotations r)%float in
      (t, mkTalon Position t, [TalonSet Position t])
    else (targetPositionRotations r, _talon_right r, []).
Proof.
  intros H. apply presetEdge_false in H. destruct H as (H1 & H2 & H3).
  unfold servo, risingEdge, outsideWindow in *. rewrite H1, H2, H3.
  destruct (Cpp.gt (Cpp.abs (leftYstick hw)) 0.01); [|reflexivity].
  destruct (Cpp.gt (targetPositionRotations r - 50)
                   (Cpp.int_to_double (sensorPosition hw))
            || Cpp.gt (Cpp.int_to_double (sensorPosition hw))
                      (targetPositionRotations r + 50)); reflexivity.
Qed.

End Tick.

(** ** The joystick branch *)

(** C1: in a tick without a rising edge on a preset button and with
    |axisY| > 0.01, the new target is axisY * 150 + currentPosition when the
    position is strictly outside the window of 50 counts around the old
    target, and axisY * 150 + the old target otherwise; the new target is the
    one position command of the tick. With a target of 1000, a position of
    949 re-anchors and a position of 950, on the boundary, accumulates (and
    so do 1051 and 1050 on the upper side). *)
Theorem joystick_window (hw : Sample) (r : Robot) :
  presetEdge hw r = false ->
  Cpp.gt (Cpp.abs (leftYstick hw)) 0.01 = true ->
  let y := leftYstick hw in
  let cur := sensorPosition hw in
  let tgt := targetPositionRotations r in
  let tgt' := targetPositionRotations (fst (TeleopPeriodic hw r)) in
  (outsideWindow tgt cur = true ->
   tgt' = (y * 150 + Cpp.int_to_double cur)%float) /\
  (outsideWindow tgt cur = false -> tgt' = (y * 150 + tgt)%float) /\
  commands (snd (TeleopPeriodic hw r)) = [tgt'] /\
  (tgt = 1000%float -> cur = 949%Z -> tgt' = (y * 150 + 949)%float) /\
  (tgt = 1000%float -> cur = 950%Z -> tgt' = (y * 150 + 1000)%float) /\
  (tgt = 1000%float -> cur = 1050%Z -> tgt' = (y * 150 + 1000)%float) /\
  (tgt = 1000%float -> cur = 1051%Z -> tgt' = (y * 150 + 1051)%float).
Proof.
  intros He Hy y cur tgt tgt'.
  assert (S := servo_joystick hw r He). rewrite Hy in S. cbv zeta in S.
  assert (T : tgt' = fst (fst (servo hw r))) by apply tick_target.
  assert (C := tick_commands hw r).
  rewrite S in T. cbv [fst snd] in T. fold y cur tgt in T.
  repeat split.
  - intros O. rewrite O in T. exact T.
  - intros O. rewrite O in T. exact T.
  - rewrite C, S, T. reflexivity.
  - intros E1 E2. rewrite E1, E2 in T. exact T.
  - intros E1 E2. rewrite E1, E2 in T. exact T.
  - intros E1 E2. rewrite E1, E2 in T. exact T.
  - intros E1 E2. rewrite E1, E2 in T. exact T.
Qed.

Lemma joystick_window_witness :
  let hw := released (-0.5)%float 949 in
  let r := Robot_new 1000 in
  presetEdge hw r = false /\
  Cpp.gt (Cpp.abs (leftYstick hw)) 0.01 = true /\
  targetPositionRotations (fst (TeleopPeriodic hw r)) = 1024%float /\
  commands (snd (TeleopPeriodic hw r)) = [1024%float].
Proof.
  intros hw r.
  split; [reflexivity|]. split; [reflexivity|].
  destruct (joystick_window hw r eq_refl eq_refl) as (_ & _ & C & A & _).
  split.
  - exact (A eq_refl eq_refl).
  - rewrite C. exact (f_equal (fun v => [v]) (A eq_refl eq_refl)).
Defined.

(** ** The preset buttons *)

(** C2: a rising edge on button 1 sets the target to 4800 counts, which is
    5.0 * 80 * 12, and commands 4800, whatever the axis and the old target
    are. *)
Theorem button1_preset (hw : Sample) (r : Robot) :
  rawButton1 hw = true ->
  _lastButton1 r = false ->
  targetPositionRotations (fst (TeleopPeriodic hw r)) = 4800%float /\
  commands (snd (TeleopPeriodic hw r)) = [4800%float] /\
  (5.0 * 80 * 12)%float = 4800%float.
Proof.
  intros Hb Hl.
  assert (E : risingEdge (_lastButton1 r) (rawButton1 hw) = true)
    by (rewrite Hb, Hl; reflexivity).
  rewrite tick_target, tick_commands, (servo_button1 hw r E).
  repeat split.
Qed.

Lemma button1_preset_witness :
  let hw := pressed true false false false (released 1 123) in
  let r := Robot_new 77 in
  rawButton1 hw = true /\ _lastButton1 r = false /\
  targetPositionRotations (fst (TeleopPeriodic hw r)) = 4800%float.
Proof.
  intros hw r. split; [reflexivity|]. split; [reflexivity|].
  exact (proj1 (button1_preset hw r eq_refl eq_refl)).
Defined.

(** C3: a tick commands the controller at most once, and the branches are
    tried in the order button 1, button 2, button 3, joystick: a rising
    button 1 gives 4800 whatever the other buttons do (so with button 2
    rising as well the one command is 4800 and not 9600), button 2 is served
    only without a rising button 1, button 3 only without both, and the
    joystick only without any. *)
Theorem preset_priority (hw : Sample) (r : Robot) :
  let e1 := risingEdge (_lastButton1 r) (rawButton1 hw) in
  let e2 := risingEdge (_lastButton2 r) (rawButton2 hw) in
  let e3 := risingEdge (_lastButton3 r) (rawButton3 hw) in
  let tgt' := targetPositionRotations (fst (TeleopPeriodic hw r)) in
  let cmds := commands (snd (TeleopPeriodic hw r)) in
  (List.length cmds <= 1)%nat /\
  (e1 = true -> tgt' = 4800%float /\ cmds = [4800%float]) /\
  (e1 = true -> e2 = true ->
   tgt' = 4800%float /\ cmds = [4800%float] /\ cmds <> [9600%float]) /\
  (e1 = false -> e2 = true -> tgt' = 9600%float /\ cmds = [9600%float]) /\
  (e1 = false -> e2 = false -> e3 = true ->
   tgt' = 14400%float /\ cmds = [14400%float]) /\
  (e1 = false -> e2 = false -> e3 = false ->
   (tgt' = targetPositionRotations r /\ cmds = []) \/
   (cmds = [tgt'] /\
    (tgt' = (leftYstick hw * 150
             + Cpp.int_to_double (sensorPosition hw))%float \/
     tgt' = (leftYstick hw * 150 + targetPositionRotations r)%float))).
Proof.
  intros e1 e2 e3 tgt' cmds. subst tgt' cmds.
  rewrite tick_target, tick_commands.
  assert (P1 : e1 = true ->
               fst (fst (servo hw r)) = 4800%float /\
               commands (snd (servo hw r)) = [4800%float]).
  { intros E. rewrite (servo_button1 hw r E). split; reflexivity. }
  assert (P2 : e1 = false -> e2 = true ->
               fst (fst (servo hw r)) = 9600%float /\
               commands (snd (servo hw r)) = [9600%float]).
  { intros E E'. rewrite (servo_button2 hw r E E'). split; reflexivity. }
  assert (P3 : e1 = false -> e2 = false -> e3 = true ->
               fst (fst (servo hw r)) = 14400%float /\
               commands (snd (servo hw r)) = [14400%float]).
  { intros E E' E''. rewrite (servo_button3 hw r E E' E'').
    split; reflexivity. }
  assert (PJ : e1 = false -> e2 = false -> e3 = false ->
               presetEdge hw r = false).
  { intros E E' E''. unfold presetEdge.
    fold e1 e2 e3. rewrite E, E', E''. reflexivity. }
  split; [|split; [|split; [|split; [|split]]]].
  - destruct e1 eqn:E1; [rewrite (proj2 (P1 eq_refl)); auto|].
    destruct e2 eqn:E2; [rewrite (proj2 (P2 eq_refl eq_refl)); auto|].
    destruct e3 eqn:E3;
      [rewrite (proj2 (P3 eq_refl eq_refl eq_refl)); auto|].
    rewrite (servo_joystick hw r (PJ eq_refl eq_refl eq_refl)).
    destruct (Cpp.gt (Cpp.abs (leftYstick hw)) 0.01); simpl; auto.
  - exact P1.
  - intros E _. destruct (P1 E) as [T C]. rewrite T, C.
    repeat split. intros X. discriminate X.
  - exact P2.
  - exact P3.
  - intros E E' E''. rewrite (servo_joystick hw r (PJ E E' E'')).
    destruct (Cpp.gt (Cpp.abs (leftYstick hw)) 0.01); cbv zeta.
    + right. split; [reflexivity|]. cbv [fst snd].
      destruct (outsideWindow _ _); auto.
    + left. split; reflexivity.
Qed.

Lemma preset_priority_witness :
  let hw := pressed true true false false (released 0 0) in
  let r := Robot_new 0 in
  risingEdge (_lastButton1 r) (rawButton1 hw) = true /\
  risingEdge (_lastButton2 r) (rawButton2 hw) = true /\
  commands (snd (TeleopPeriodic hw r)) = [4800%float] /\
  commands (snd (TeleopPeriodic hw r)) <> [9600%float].
Proof.
  intros hw r. split; [reflexivity|]. split; [reflexivity|].
  destruct (preset_priority hw r) as (_ & _ & P & _).
  exact (proj2 (P eq_refl eq_refl)).
Defined.

(** ** The deadband *)

(** Without a rising preset button and with the test of line 117 failing,
    the tick commands nothing and keeps the target. *)
Lemma tick_idle (hw : Sample) (r : Robot) :
  presetEdge hw r = false ->
  Cpp.gt (Cpp.abs (leftYstick hw)) 0.01 = false ->
  targetPositionRotations (fst (TeleopPeriodic hw r))
  = targetPositionRotations r /\
  commands (snd (TeleopPeriodic hw r)) = [] /\
  _talon_right (fst (TeleopPeriodic hw r)) = _talon_right r.
Proof.
  intros He Hy.
  rewrite tick_target, tick_commands, tick_talon, (servo_joystick hw r He), Hy.
  repeat split.
Qed.

(** C4: without a rising preset button and with axisY strictly between -0.01
    and 0.01, the tick emits no position command and leaves the target as it
    was; and whenever a tick changes the target, a preset button rose or the
    axis was outside the deadband. *)
Theorem deadband_no_drift (hw : Sample) (r : Robot) :
  (presetEdge hw r = false ->
   (-0.01 <? leftYstick hw)%float = true ->
   (leftYstick hw <? 0.01)%float = true ->
   commands (snd (TeleopPeriodic hw r)) = [] /\
   targetPositionRotations (fst (TeleopPeriodic hw r))
   = targetPositionRotations r) /\
  (targetPositionRotations (fst (TeleopPeriodic hw r))
   <> targetPositionRotations r ->
   presetEdge hw r = true \/ Cpp.gt (Cpp.abs (leftYstick hw)) 0.01 = true).
Proof.
  split.
  - intros He Hlo Hhi.
    destruct (tick_idle hw r He (deadband_open _ Hlo Hhi)) as (T & C & _).
    split; assumption.
  - intros Hne.
    destruct (presetEdge hw r) eqn:He; [left; reflexivity|].
    destruct (Cpp.gt (Cpp.abs (leftYstick hw)) 0.01) eqn:Hy;
      [right; reflexivity|].
    destruct (tick_idle hw r He Hy) as (T & _). contradiction.
Qed.

Lemma deadband_no_drift_witness :
  let hw := released 0.005 300 in
  let r := Robot_new 1234 in
  presetEdge hw r = false /\
  (-0.01 <? leftYstick hw)%float = true /\
  (leftYstick hw <? 0.01)%float = true /\
  commands (snd (TeleopPeriodic hw r)) = [] /\
  targetPositionRotations (fst (TeleopPeriodic hw r)) = 1234%float.
Proof.
  intros hw r. do 3 (split; [reflexivity|]).
  exact (proj1 (deadband_no_drift hw r) eq_refl eq_refl eq_refl).
Defined.

(** ** Two ticks *)

(** C5: button 2 rises in the first tick (button 1 does not): the target
    becomes 9600 and is commanded; in the second tick every button is
    released, axisY is 0.5 and the position is 9600, inside the window: the
    target becomes 0.5 * 150 + 9600 = 9675 and is commanded. *)
Theorem preset2_then_joystick (hw1 hw2 : Sample) (r : Robot) :
  _lastButton2 r = false ->
  risingEdge (_lastButton1 r) (rawButton1 hw1) = false ->
  rawButton2 hw1 = true ->
  rawButton1 hw2 = false -> rawButton2 hw2 = false -> rawButton3 hw2 = false ->
  leftYstick hw2 = 0.5%float ->
  sensorPosition hw2 = 9600%Z ->
  let r1 := fst (TeleopPeriodic hw1 r) in
  let r2 := fst (TeleopPeriodic hw2 r1) in
  targetPositionRotations r1 = 9600%float /\
  commands (snd (TeleopPeriodic hw1 r)) = [9600%float] /\
  outsideWindow (targetPositionRotations r1) (sensorPosition hw2) = false /\
  targetPositionRotations r2 = 9675%float /\
  commands (snd (TeleopPeriodic hw2 r1)) = [9675%float] /\
  (0.5 * 150 + 9600)%float = 9675%float /\
  snd (run [hw1; hw2] r)
  = [snd (TeleopPeriodic hw1 r); snd (TeleopPeriodic hw2 r1)].
Proof.
  intros Hl2 He1 Hb2 H1 H2 H3 Hy Hpos r1 r2.
  assert (E2 : risingEdge (_lastButton2 r) (rawButton2 hw1) = true)
    by (rewrite Hl2, Hb2; reflexivity).
  assert (T1 : targetPositionRotations r1 = 9600%float).
  { unfold r1. rewrite tick_target, (servo_button2 hw1 r He1 E2).
    reflexivity. }
  assert (C1 : commands (snd (TeleopPeriodic hw1 r)) = [9600%float]).
  { rewrite tick_commands, (servo_button2 hw1 r He1 E2). reflexivity. }
  assert (Q : presetEdge hw2 r1 = false).
  { unfold presetEdge, risingEdge. rewrite H1, H2, H3.
    rewrite !andb_false_r. reflexivity. }
  assert (W : outsideWindow (targetPositionRotations r1) (sensorPosition hw2)
              = false) by (rewrite T1, Hpos; reflexivity).
  assert (S := servo_joystick hw2 r1 Q).
  rewrite Hy, W, T1 in S.
  change (servo hw2 r1
          = (9675%float, mkTalon Position 9675, [TalonSet Position 9675]))
    in S.
  repeat split; try assumption.
  - unfold r2. rewrite tick_target, S. reflexivity.
  - rewrite tick_commands, S. reflexivity.
  - simpl. fold r1.
    destruct (TeleopPeriodic hw1 r) as [ra ea] eqn:Ea.
    unfold r1. simpl.
    destruct (TeleopPeriodic hw2 ra) as [rb eb]. reflexivity.
Qed.

Lemma preset2_then_joystick_witness :
  let hw1 := pressed false true false false (released 0 0) in
  let hw2 := released (-0.5) 9600 in
  let r := Robot_new 0 in
  targetPositionRotations (fst (TeleopPeriodic hw1 r)) = 9600%float /\
  targetPositionRotations
    (fst (TeleopPeriodic hw2 (fst (TeleopPeriodic hw1 r)))) = 9675%float.
Proof.
  intros hw1 hw2 r.
  destruct (preset2_then_joystick hw1 hw2 r eq_refl eq_refl eq_refl eq_refl
              eq_refl eq_refl eq_refl eq_refl) as (A & _ & _ & B & _).
  split; [exact A | exact B].
Defined.

(** ** Quiescent ticks *)

(** After a tick the stored flags are the buttons of that tick, so the same
    sample again has no rising edge. *)
Lemma presetEdge_repeat (hw : Sample) (r : Robot) :
  presetEdge hw (fst (TeleopPeriodic hw r)) = false.
Proof.
  destruct (tick_lastButtons hw r) as (E1 & E2 & E3).
  unfold presetEdge, risingEdge. rewrite E1, E2, E3.
  destruct (rawButton1 hw), (rawButton2 hw), (rawButton3 hw); reflexivity.
Qed.

(** C6: two consecutive ticks on the same sample, with no button going from
    released to pressed and the axis at zero: the second tick leaves the
    arbiter state as the first one left it, neither tick commands anything,
    the target is the one before the first tick, and when no button changed
    at all the arbiter state is the one before the first tick. *)
Theorem quiescent_idempotent (hw : Sample) (r : Robot) :
  presetEdge hw r = false ->
  is_zero (leftYstick hw) = true ->
  let r1 := fst (TeleopPeriodic hw r) in
  let r2 := fst (TeleopPeriodic hw r1) in
  arbiterState r2 = arbiterState r1 /\
  targetPosition (arbiterState r2) = targetPosition (arbiterState r) /\
  commands (snd (TeleopPeriodic hw r)) = [] /\
  commands (snd (TeleopPeriodic hw r1)) = [] /\
  (_lastButton1 r = rawButton1 hw -> _lastButton2 r = rawButton2 hw ->
   _lastButton3 r = rawButton3 hw ->
   arbiterState r1 = arbiterState r /\ arbiterState r2 = arbiterState r).
Proof.
  intros He Hz r1 r2.
  pose proof (deadband_zero _ Hz) as Hy.
  destruct (tick_idle hw r He Hy) as (T1 & C1 & _).
  destruct (tick_idle hw r1 (presetEdge_repeat hw r) Hy) as (T2 & C2 & _).
  destruct (tick_lastButtons hw r) as (A1 & A2 & A3).
  destruct (tick_lastButtons hw r1) as (B1 & B2 & B3).
  fold r1 in T1, A1, A2, A3. fold r2 in T2, B1, B2, B3.
  assert (E21 : arbiterState r2 = arbiterState r1).
  { unfold arbiterState. rewrite T2, B1, B2, B3, A1, A2, A3. reflexivity. }
  repeat split; try assumption.
  - unfold arbiterState, targetPosition. rewrite T2, T1. reflexivity.
  - unfold arbiterState. rewrite T1, A1, A2, A3. congruence.
  - rewrite E21. unfold arbiterState. rewrite T1, A1, A2, A3. congruence.
Qed.

Lemma quiescent_idempotent_witness :
  let hw := pressed false true false true (released 0 42) in
  let r := fst (TeleopPeriodic (pressed true true false false (released 0 0))
                               (Robot_new 3)) in
  presetEdge hw r = false /\
  is_zero (leftYstick hw) = true /\
  arbiterState (fst (TeleopPeriodic hw (fst (TeleopPeriodic hw r))))
  = arbiterState (fst (TeleopPeriodic hw r)).
Proof.
  intros hw r. do 2 (split; [reflexivity|]).
  exact (proj1 (quiescent_idempotent hw r eq_refl eq_refl)).
Defined.

(** C7: after a tick the three stored flags are the three buttons as sampled
    in that tick, whatever the state before and whichever branch ran. *)
Theorem lastButtons_overwritten (hw : Sample) (r : Robot) :
  _lastButton1 (fst (TeleopPeriodic hw r)) = rawButton1 hw /\
  _lastButton2 (fst (TeleopPeriodic hw r)) = rawButton2 hw /\
  _lastButton3 (fst (TeleopPeriodic hw r)) = rawButton3 hw.
Proof.
  unfold TeleopPeriodic.
  destruct (servo hw r) as [[target talon] ev_set].
  destruct (10 <=? _loops r + 1)%Z; cbv [fst]; repeat split.
Qed.

(** ** Button 4 *)

(** C9: two samples that differ at most in button 4 give, from the same
    object, the same object and the same events: the same arbiter state and
    the same position command or none. *)
Theorem button4_ignored (a b : Sample) (r : Robot) :
  sameButButton4 a b ->
  TeleopPeriodic a r = TeleopPeriodic b r /\
  arbiterState (fst (TeleopPeriodic a r))
  = arbiterState (fst (TeleopPeriodic b r)) /\
  commands (snd (TeleopPeriodic a r)) = commands (snd (TeleopPeriodic b r)).
Proof.
  intros H.
  assert (E : TeleopPeriodic a r = TeleopPeriodic b r).
  { destruct a, b. unfold sameButButton4 in H. simpl in H.
    destruct H as (-> & -> & -> & -> & -> & -> & -> & ->). reflexivity. }
  rewrite E. repeat split.
Qed.

Lemma button4_ignored_witness :
  let a := pressed false false false true (released 1 10) in
  let b := released 1 10 in
  rawButton4 a <> rawButton4 b /\ TeleopPeriodic a (Robot_new 0)
                                  = TeleopPeriodic b (Robot_new 0).
Proof.
  intros a b. split; [discriminate|].
  refine (proj1 (button4_ignored a b (Robot_new 0) _)).
  repeat split.
Defined.

(** ** Telemetry *)

Section Run.

Lemma run_cons (hw : Sample) (rest : list Sample) (r : Robot) :
  run (hw :: rest) r
  = (fst (run rest (fst (TeleopPeriodic hw r))),
     snd (TeleopPeriodic hw r) :: snd (run rest (fst (TeleopPeriodic hw r)))).
Proof.
  simpl. destruct (TeleopPeriodic hw r) as [r1 ev].
  simpl. destruct (run rest r1) as [r2 evs]. reflexivity.
Qed.

(** The counter after a run that started with the counter in 0..9. *)
Lemma run_loops (hws : list Sample) :
  forall r, (0 <= _loops r < 10)%Z ->
  _loops (fst (run hws r))
  = ((_loops r + Z.of_nat (List.length hws)) mod 10)%Z.
Proof.
  induction hws as [|hw rest IH]; intros r Hr.
  - simpl. rewrite Z.add_0_r, Z.mod_small; lia.
  - rewrite run_cons. unfold fst at 1.
    pose proof (tick_loops hw r) as L.
    assert (Hr1 : (0 <= _loops (fst (TeleopPeriodic hw r)) < 10)%Z).
    { rewrite L. destruct (Z.leb_spec 10 (_loops r + 1)); lia. }
    rewrite (IH _ Hr1), L. simpl List.length. rewrite Nat2Z.inj_succ.
    destruct (Z.leb_spec 10 (_loops r + 1)).
    + replace (_loops r) with 9%Z by lia.
      replace (9 + Z.succ (Z.of_nat (List.length rest)))%Z
        with (0 + Z.of_nat (List.length rest) + 1 * 10)%Z by lia.
      apply eq_sym, Z.mod_add. lia.
    + f_equal. lia.
Qed.

Lemma run_sb (hws : list Sample) :
  forall r, _sb r = [] -> _sb (fst (run hws r)) = [].
Proof.
  induction hws as [|hw rest IH]; intros r Hr; [exact Hr|].
  rewrite run_cons. unfold fst at 1. apply IH, tick_sb.
Qed.

(** The events of tick [k] of a run are those of [TeleopPeriodic] on sample
    [k], from the object the first [k] ticks left. *)
Lemma run_nth (hws : list Sample) :
  forall r k hw, nth_error hws k = Some hw ->
  nth_error (snd (run hws r)) k
  = Some (snd (TeleopPeriodic hw (fst (run (firstn k hws) r)))).
Proof.
  induction hws as [|h rest IH]; intros r k hw Hk.
  - destruct k; discriminate Hk.
  - rewrite run_cons. destruct k as [|k].
    + simpl in Hk. injection Hk as ->. reflexivity.
    + simpl in Hk. unfold snd at 1. simpl nth_error. rewrite (IH _ _ _ Hk).
      simpl firstn. rewrite run_cons. reflexivity.
Qed.

End Run.

(** The labels of the closed-loop error and of the target are in a line made
    of [lineHead] and, in position mode, [lineServo], exactly when the mode
    is [Position]; the values follow their labels. *)
Lemma line_servo_iff (hw : Sample) (m : ControlMode) (t : float) :
  let l := lineHead hw
           ++ (if ControlMode_eqb m Position then lineServo hw t else []) in
  (In (Txt "	errNative: ") l /\ In (Txt "	trg: ") l) <-> m = Position.
Proof.
  destruct m; simpl; split; intros H.
  - destruct H as [[H|[H|[H|[H|[]]]]] _]; discriminate H.
  - discriminate H.
  - reflexivity.
  - split; auto 10.
Qed.

(** C8: counting the ticks of a run from 1, with the counter at 0 and the
    line empty at the start (as the constructor leaves them): tick k + 1
    prints one line when k + 1 is a multiple of 10 and none otherwise, which
    is when the incremented counter is 10; the counter after it is
    (k + 1) mod 10, that is one more than before, or 0 after a print; the
    line is the output percent and the position, followed
    by the closed-loop error and the target of this tick exactly when the
    controller reports position mode in this tick. *)
Theorem telemetry_every_tenth
        (hws : list Sample) (r : Robot) (k : nat) (hw : Sample) :
  _loops r = 0%Z ->
  _sb r = [] ->
  nth_error hws k = Some hw ->
  let rk := fst (run (firstn k hws) r) in
  let out := TeleopPeriodic hw rk in
  let mode := GetControlMode (_talon_right (fst out)) in
  let line := lineHead hw
              ++ (if ControlMode_eqb mode Position
                  then lineServo hw (targetPositionRotations (fst out))
                  else []) in
  nth_error (snd (run hws r)) k = Some (snd out) /\
  lines (snd out)
  = (if ((Z.of_nat k + 1) mod 10 =? 0)%Z then [line] else []) /\
  _loops (fst out) = ((Z.of_nat k + 1) mod 10)%Z /\
  _loops (fst out)
  = (if ((Z.of_nat k + 1) mod 10 =? 0)%Z then 0 else _loops rk + 1)%Z /\
  ((Z.of_nat k + 1) mod 10 =? 0)%Z = (_loops rk + 1 =? 10)%Z /\
  ((In (Txt "	errNative: ") line /\ In (Txt "	trg: ") line)
   <-> mode = Position).
Proof.
  intros Hl Hs Hk rk out mode line.
  assert (Lk : (k < List.length hws)%nat)
    by (apply nth_error_Some; rewrite Hk; discriminate).
  assert (Hrk : _loops rk = (Z.of_nat k mod 10)%Z).
  { unfold rk. rewrite run_loops by lia.
    rewrite Hl, length_firstn, Nat.min_l by lia. reflexivity. }
  assert (Hsk : _sb rk = []) by (apply run_sb; exact Hs).
  assert (M : ((Z.of_nat k + 1) mod 10 =? 0)%Z = (10 <=? _loops rk + 1)%Z).
  { rewrite Hrk.
    destruct (Z.eqb_spec ((Z.of_nat k + 1) mod 10) 0) as [E|E];
      destruct (Z.leb_spec 10 (Z.of_nat k mod 10 + 1)) as [F|F];
      try reflexivity; exfalso; revert E F;
      Z.div_mod_to_equations; lia. }
  split; [apply run_nth; exact Hk|].
  split; [|split; [|split; [|split]]].
  - unfold out at 1. rewrite tick_lines, Hsk, M.
    destruct (10 <=? _loops rk + 1)%Z; [|reflexivity].
    unfold line, mode, out. rewrite tick_talon, tick_target. reflexivity.
  - unfold out. rewrite tick_loops, Hrk.
    destruct (Z.leb_spec 10 (Z.of_nat k mod 10 + 1)) as [F|F];
      revert F; Z.div_mod_to_equations; lia.
  - unfold out. rewrite tick_loops, M. reflexivity.
  - rewrite Hrk.
    destruct (Z.eqb_spec ((Z.of_nat k + 1) mod 10) 0) as [E|E];
      destruct (Z.eqb_spec (Z.of_nat k mod 10 + 1) 10) as [F|F];
      try reflexivity; exfalso; revert E F;
      Z.div_mod_to_equations; lia.
  - apply (line_servo_iff hw mode (targetPositionRotations (fst out))).
Qed.

Lemma telemetry_every_tenth_witness :
  let hws := repeat (released 0 5) 9 ++ [pressed true false false false
                                           (released 0 6)] in
  let r := Robot_new 0 in
  lines (nth 9 (snd (run hws r)) [])
  = [[Txt "	out right: "; Dbl 0; Txt "	pos right: "; Int 6;
      Txt "	errNative: "; Int 0; Txt "	trg: "; Dbl 4800]] /\
  lines (nth 8 (snd (run hws r)) []) = [].
Proof.
  intros hws r. split.
  - destruct (telemetry_every_tenth hws r 9
                (pressed true false false false (released 0 6))
                eq_refl eq_refl eq_refl) as (N & L & _).
    rewrite (nth_error_nth _ _ _ N). exact L.
  - destruct (telemetry_every_tenth hws r 8 (released 0 5)
                eq_refl eq_refl eq_refl) as (N & L & _).
    rewrite (nth_error_nth _ _ _ N). exact L.
Defined.

(** ** The target before the first preset *)

(** C10: neither the member initialisers nor [RobotInit] give
    [targetPositionRotations] a value, so the first tick reads whatever the
    field holds, [t0]: without a rising preset button and with |axisY| > 0.01
    both the window test and the one command of that tick are computed from
    [t0], and two values of [t0] give different commands on the same
    samples; once a preset button rises the tick no longer depends on
    [t0]. *)
Theorem target_uninitialised :
  (forall t0 pid tmo,
      targetPositionRotations (fst (RobotInit pid tmo (Robot_new t0))) = t0) /\
  (forall t0 pid tmo hw,
      let r := fst (RobotInit pid tmo (Robot_new t0)) in
      presetEdge hw r = false ->
      Cpp.gt (Cpp.abs (leftYstick hw)) 0.01 = true ->
      commands (snd (TeleopPeriodic hw r))
      = [if outsideWindow t0 (sensorPosition hw)
         then (leftYstick hw * 150
               + Cpp.int_to_double (sensorPosition hw))%float
         else (leftYstick hw * 150 + t0)%float]) /\
  (exists t0 t0' pid tmo hws,
      Forall (fun hw => rawButton1 hw = false /\ rawButton2 hw = false /\
                        rawButton3 hw = false /\
                        Cpp.gt (Cpp.abs (leftYstick hw)) 0.01 = true) hws /\
      map commands (snd (run hws (fst (RobotInit pid tmo (Robot_new t0)))))
      <> map commands
             (snd (run hws (fst (RobotInit pid tmo (Robot_new t0')))))) /\
  (forall t0 t0' pid tmo hw,
      presetEdge hw (fst (RobotInit pid tmo (Robot_new t0))) = true ->
      TeleopPeriodic hw (fst (RobotInit pid tmo (Robot_new t0)))
      = TeleopPeriodic hw (fst (RobotInit pid tmo (Robot_new t0')))).
Proof.
  split; [reflexivity|]. split; [|split].
  - intros t0 pid tmo hw r He Hy.
    rewrite tick_commands, (servo_joystick hw r He), Hy. reflexivity.
  - exists 0%float, 10%float, 0%Z, 0%Z, [released (-1) 0].
    split.
    + repeat constructor.
    + intros X. discriminate X.
  - intros t0 t0' pid tmo hw.
    destruct hw as [ax b1 b2 b3 b4 mo pp sp ce].
    unfold presetEdge, risingEdge. simpl.
    destruct b1; [reflexivity|]. destruct b2; [reflexivity|].
    destruct b3; [reflexivity|]. discriminate.
Qed.

Lemma target_uninitialised_witness :
  let hw := released (-1) 0 in
  commands (snd (TeleopPeriodic hw (fst (RobotInit 0 0 (Robot_new 0)))))
  = [150%float] /\
  commands (snd (TeleopPeriodic hw (fst (RobotInit 0 0 (Robot_new 10)))))
  = [160%float].
Proof.
  destruct target_uninitialised as (_ & P & _).
  intros hw. split.
  - exact (P 0%float 0%Z 0%Z hw eq_refl eq_refl).
  - exact (P 10%float 0%Z 0%Z hw eq_refl eq_refl).
Defined.

(** * Beyond single ticks: what runs of [TeleopPeriodic] keep *)

Section TickShape.

Variables (hw : Sample) (r : Robot).

(** [servo] either does nothing or stores and sends one value. *)
Lemma servo_cases :
  servo hw r = (targetPositionRotations r, _talon_right r, [])
  \/ exists v, servo hw r = (v, mkTalon Position v, [TalonSet Position v]).
Proof.
  unfold servo, Talon_Set.
  repeat match goal with
         | |- context [if ?c then _ else _] => destruct c
         end;
    first [ left; reflexivity | right; eexists; reflexivity ].
Qed.

(** The events of a tick: those of [servo], then the line if it is due. *)
Lemma tick_events :
  snd (TeleopPeriodic hw r)
  = snd (servo hw r)
    ++ (if (10 <=? _loops r + 1)%Z
        then [Printf (_sb r ++ lineHead hw
                      ++ (if ControlMode_eqb
                               (GetControlMode (snd (fst (servo hw r))))
                               Position
                          then lineServo hw (fst (fst (servo hw r)))
                          else []))]
        else []).
Proof.
  unfold TeleopPeriodic. destruct (servo hw r) as [[t tl] ev].
  unfold fst, snd.
  destruct (10 <=? _loops r + 1)%Z; [|reflexivity].
  destruct (ControlMode_eqb (GetControlMode tl) Position);
    unfold lineHead, lineServo;
    rewrite ?app_nil_r, <- ?app_assoc; reflexivity.
Qed.

(** A tick either sends nothing and keeps target and controller, or sends
    the new target, which the controller then holds in position mode. *)
Lemma tick_command_cases :
  let r' := fst (TeleopPeriodic hw r) in
  (commands (snd (TeleopPeriodic hw r)) = [] /\
   targetPositionRotations r' = targetPositionRotations r /\
   _talon_right r' = _talon_right r)
  \/ (commands (snd (TeleopPeriodic hw r)) = [targetPositionRotations r'] /\
      _talon_right r' = mkTalon Position (targetPositionRotations r')).
Proof.
  intros r'. unfold r'. rewrite tick_commands, tick_target, tick_talon.
  destruct servo_cases as [E | [v E]]; rewrite E.
  - left. repeat split.
  - right. repeat split.
Qed.

End TickShape.

Section Runs.

Lemma allCommands_cons (ev : list Event) (evs : list (list Event)) :
  allCommands (ev :: evs) = commands ev ++ allCommands evs.
Proof. reflexivity. Qed.

Lemma allLines_cons (ev : list Event) (evs : list (list Event)) :
  allLines (ev :: evs) = lines ev ++ allLines evs.
Proof. reflexivity. Qed.

Lemma last_app_nonempty {A : Type} (a b : list A) (d : A) :
  b <> [] -> last (a ++ b) d = last b d.
Proof.
  intros Hb. induction a as [|x a IH]; [reflexivity|].
  simpl. destruct (a ++ b) eqn:E.
  - apply app_eq_nil in E. destruct E as [_ E]. contradiction.
  - exact IH.
Qed.

(** What a run does to target and controller, read off its commands. *)
Lemma run_command_cases (hws : list Sample) :
  forall r,
  let cs := allCommands (snd (run hws r)) in
  let r' := fst (run hws r) in
  (cs = [] /\
   targetPositionRotations r' = targetPositionRotations r /\
   _talon_right r' = _talon_right r)
  \/ (cs <> [] /\
      targetPositionRotations r' = last cs 0%float /\
      _talon_right r' = mkTalon Position (last cs 0%float)).
Proof.
  induction hws as [|hw rest IH]; intros r; cbv zeta.
  - left. repeat split.
  - rewrite run_cons. cbn [fst snd]. rewrite allCommands_cons.
    specialize (IH (fst (TeleopPeriodic hw r))). cbv zeta in IH.
    destruct IH as [(C & T & L) | (C & T & L)].
    + rewrite C, app_nil_r, T, L.
      destruct (tick_command_cases hw r) as [(C1 & T1 & L1) | (C1 & L1)].
      * left. rewrite C1. repeat split; assumption.
      * right. rewrite C1. simpl last. repeat split; try assumption.
        discriminate.
    + right. rewrite T, L.
      assert (E : last (commands (snd (TeleopPeriodic hw r))
                        ++ allCommands
                             (snd (run rest (fst (TeleopPeriodic hw r)))))
                       0%float
                  = last (allCommands
                            (snd (run rest (fst (TeleopPeriodic hw r)))))
                         0%float)
        by (apply last_app_nonempty; exact C).
      rewrite E. repeat split.
      intros X. apply app_eq_nil in X. destruct X as [_ X]. exact (C X).
Qed.

End Runs.

(** ** The controller over a run *)

Lemma tick_shape (hw : Sample) (r : Robot) :
  tickShape (snd (TeleopPeriodic hw r)).
Proof.
  unfold tickShape. rewrite tick_events.
  destruct (servo_cases hw r) as [E | [v E]]; rewrite E; cbn [fst snd].
  - exists []. destruct (10 <=? _loops r + 1)%Z.
    + eexists [_]. repeat split; simpl; lia.
    + exists []. repeat split; simpl; lia.
  - exists [v]. destruct (10 <=? _loops r + 1)%Z.
    + eexists [_]. repeat split; simpl; lia.
    + exists []. repeat split; simpl; lia.
Qed.

(** X1: every tick of every run issues at most one [Set], always in
    position mode, followed by at most one printed line and nothing else;
    and a controller that is in position mode is still in position mode
    after any number of ticks. *)
Theorem position_mode_latches (hws : list Sample) (r : Robot) :
  Forall tickShape (snd (run hws r)) /\
  (GetControlMode (_talon_right r) = Position ->
   GetControlMode (_talon_right (fst (run hws r))) = Position).
Proof.
  split.
  - revert r. induction hws as [|hw rest IH]; intros r.
    + constructor.
    + rewrite run_cons. cbn [snd]. constructor; [apply tick_shape|apply IH].
  - intros Hm.
    destruct (run_command_cases hws r) as [(_ & _ & L) | (_ & _ & L)];
      rewrite L; [exact Hm | reflexivity].
Qed.

Lemma position_mode_latches_witness :
  let r := fst (TeleopPeriodic (pressed false false true false (released 0 0))
                               (Robot_new 0)) in
  let hws := [released 0 10; released (-1) 20; released 0 30] in
  GetControlMode (_talon_right r) = Position /\
  GetControlMode (_talon_right (fst (run hws r))) = Position.
Proof.
  intros r hws. split; [reflexivity|].
  exact (proj2 (position_mode_latches hws r) eq_refl).
Defined.

(** X2: over any run from any object, the stored target changes only by
    being sent: when the run sent no command, target and controller are as
    before; when it sent some, the target is the last value sent and the
    controller holds that value in position mode. *)
Theorem target_is_last_command (hws : list Sample) (r : Robot) :
  let cs := allCommands (snd (run hws r)) in
  let r' := fst (run hws r) in
  (cs = [] ->
   targetPositionRotations r' = targetPositionRotations r /\
   _talon_right r' = _talon_right r) /\
  (cs <> [] ->
   targetPositionRotations r' = last cs 0%float /\
   demand (_talon_right r') = targetPositionRotations r' /\
   GetControlMode (_talon_right r') = Position).
Proof.
  intros cs r'.
  destruct (run_command_cases hws r) as [(C & T & L) | (C & T & L)];
    fold cs r' in C, T, L; split; intros H.
  - split; assumption.
  - contradiction.
  - contradiction.
  - rewrite L, T. repeat split.
Qed.

Lemma target_is_last_command_witness :
  let hws := [pressed true false false false (released 0 0);
              released 0 100; released (-1) 4800] in
  let out := run hws (Robot_new 7) in
  allCommands (snd out) = [4800%float; 4950%float] /\
  targetPositionRotations (fst out) = 4950%float /\
  demand (_talon_right (fst out)) = 4950%float.
Proof.
  intros hws out. split; [reflexivity|].
  assert (N : allCommands (snd (run hws (Robot_new 7))) <> [])
    by discriminate.
  destruct (proj2 (target_is_last_command hws (Robot_new 7)) N) as (T & D & _).
  split; [exact T | exact (eq_trans D T)].
Defined.

(** ** Idle and held samples *)

Lemma noPreset_edge (hw : Sample) (r : Robot) :
  noPreset hw = true -> presetEdge hw r = false.
Proof.
  unfold noPreset, presetEdge, risingEdge. intros H.
  apply andb_true_iff in H. destruct H as [H H3].
  apply andb_true_iff in H. destruct H as [H1 H2].
  apply negb_true_iff in H1, H2, H3. rewrite H1, H2, H3.
  rewrite !andb_false_r. reflexivity.
Qed.

Lemma idleSample_tick (hw : Sample) (r : Robot) :
  idleSample hw = true ->
  presetEdge hw r = false /\ Cpp.gt (Cpp.abs (leftYstick hw)) 0.01 = false.
Proof.
  unfold idleSample. intros H. apply andb_true_iff in H.
  destruct H as [H1 H2]. split.
  - apply noPreset_edge, H1.
  - apply negb_true_iff, H2.
Qed.

(** A run of idle samples sends nothing and keeps target and controller. *)
Lemma run_idle (hws : list Sample) :
  forallb idleSample hws = true ->
  forall r,
    allCommands (snd (run hws r)) = [] /\
    targetPositionRotations (fst (run hws r)) = targetPositionRotations r /\
    _talon_right (fst (run hws r)) = _talon_right r.
Proof.
  induction hws as [|hw rest IH]; intros H r.
  - repeat split.
  - simpl in H. apply andb_true_iff in H. destruct H as [Hh Hr].
    destruct (idleSample_tick hw r Hh) as [He Hy].
    destruct (tick_idle hw r He Hy) as (T & C & L).
    destruct (IH Hr (fst (TeleopPeriodic hw r))) as (C' & T' & L').
    rewrite run_cons. cbn [fst snd].
    rewrite allCommands_cons, C, C', T', L', T, L. repeat split.
Qed.

Lemma forallb_firstn {A : Type} (f : A -> bool) (k : nat) (l : list A) :
  forallb f l = true -> forallb f (firstn k l) = true.
Proof.
  revert k. induction l as [|x l IH]; intros k H.
  - destruct k; reflexivity.
  - destruct k; [reflexivity|]. simpl in *.
    apply andb_true_iff in H. destruct H as [Hx Hl].
    rewrite Hx. apply IH, Hl.
Qed.

(** Tick [k + 1] is a multiple of ten exactly when the counter, which is
    [k mod 10] before it, reaches ten. *)
Lemma tenth_tick (k : nat) :
  ((Z.of_nat k + 1) mod 10 =? 0)%Z = (10 <=? Z.of_nat k mod 10 + 1)%Z.
Proof.
  destruct (Z.eqb_spec ((Z.of_nat k + 1) mod 10) 0) as [E|E];
    destruct (Z.leb_spec 10 (Z.of_nat k mod 10 + 1)) as [F|F];
    try reflexivity; exfalso; revert E F;
    Z.div_mod_to_equations; lia.
Qed.

(** X3: an object as constructed and initialised, fed only samples with no
    preset button pressed and the stick inside the deadband, never commands
    the controller, keeps whatever the target field held, leaves the
    controller out of position mode, and on every tenth tick prints a line
    of just the output percent and the position of that tick. *)
Theorem idle_run_prints_head_only
        (t0 : float) (pid tmo : Z) (hws : list Sample) :
  forallb idleSample hws = true ->
  let out := run hws (fst (RobotInit pid tmo (Robot_new t0))) in
  allCommands (snd out) = [] /\
  targetPositionRotations (fst out) = t0 /\
  GetControlMode (_talon_right (fst out)) = PercentOutput /\
  forall k hw, nth_error hws k = Some hw ->
    nth_error (snd out) k
    = Some (if ((Z.of_nat k + 1) mod 10 =? 0)%Z
            then [Printf (lineHead hw)] else []).
Proof.
  intros H out. set (r0 := fst (RobotInit pid tmo (Robot_new t0))).
  destruct (run_idle hws H r0) as (C & T & L).
  split; [exact C|]. split; [exact T|]. split; [unfold out; fold r0;
                                                 rewrite L; reflexivity|].
  intros k hw Hk. unfold out. fold r0. rewrite (run_nth hws r0 k hw Hk).
  f_equal.
  set (rk := fst (run (firstn k hws) r0)).
  assert (Lk : (k < List.length hws)%nat)
    by (apply nth_error_Some; rewrite Hk; discriminate).
  assert (Hloops : _loops rk = (Z.of_nat k mod 10)%Z).
  { unfold rk. rewrite run_loops by (simpl; lia).
    rewrite length_firstn, Nat.min_l by lia. reflexivity. }
  assert (Hsb : _sb rk = []) by (apply run_sb; reflexivity).
  destruct (run_idle (firstn k hws) (forallb_firstn _ k hws H) r0)
    as (_ & _ & Lk').
  fold rk in Lk'.
  assert (Hhw : idleSample hw = true).
  { apply nth_error_In in Hk. rewrite forallb_forall in H. apply H, Hk. }
  destruct (idleSample_tick hw rk Hhw) as [He Hy].
  rewrite tick_events, (servo_joystick hw rk He), Hy, Hloops, Hsb, Lk'.
  cbn [fst snd]. rewrite tenth_tick.
  destruct (10 <=? Z.of_nat k mod 10 + 1)%Z; [|reflexivity].
  simpl. rewrite ?app_nil_r. reflexivity.
Qed.

Lemma idle_run_prints_head_only_witness :
  let hws := repeat (released 0.005 12) 10 in
  let out := run hws (fst (RobotInit 0 10 (Robot_new 55))) in
  forallb idleSample hws = true /\
  allCommands (snd out) = [] /\
  nth_error (snd out) 9 = Some [Printf (lineHead (released 0.005 12))].
Proof.
  intros hws out. split; [reflexivity|].
  destruct (idle_run_prints_head_only 55 0 10 hws eq_refl) as (C & _ & _ & N).
  split; [exact C | exact (N 9%nat (released 0.005 12) eq_refl)].
Defined.

(** After a tick on [hw], the flags are the buttons of [hw]; from such an
    object, more ticks on [hw] with the stick inside the deadband send
    nothing and keep the arbiter state. *)
Lemma run_held (hw : Sample) (n : nat) :
  Cpp.gt (Cpp.abs (leftYstick hw)) 0.01 = false ->
  forall r,
    _lastButton1 r = rawButton1 hw -> _lastButton2 r = rawButton2 hw ->
    _lastButton3 r = rawButton3 hw ->
    allCommands (snd (run (repeat hw n) r)) = [] /\
    arbiterState (fst (run (repeat hw n) r)) = arbiterState r.
Proof.
  intros Hy. induction n as [|n IH]; intros r E1 E2 E3.
  - split; reflexivity.
  - assert (He : presetEdge hw r = false).
    { unfold presetEdge, risingEdge. rewrite E1, E2, E3.
      destruct (rawButton1 hw), (rawButton2 hw), (rawButton3 hw);
        reflexivity. }
    destruct (tick_idle hw r He Hy) as (T & C & _).
    destruct (tick_lastButtons hw r) as (B1 & B2 & B3).
    destruct (IH (fst (TeleopPeriodic hw r)) B1 B2 B3) as (C' & A').
    simpl repeat. rewrite run_cons. cbn [fst snd].
    rewrite allCommands_cons, C, C', A'. split; [reflexivity|].
    unfold arbiterState. rewrite T, B1, B2, B3, E1, E2, E3. reflexivity.
Qed.

(** X4: holding one sample with the stick inside the deadband for any
    number of ticks acts once: all the commands of the run are those of the
    first tick (a pressed preset button is served once, not once per tick),
    and the arbiter state after the run is the one after the first tick. *)
Theorem held_sample_acts_once (hw : Sample) (n : nat) (r : Robot) :
  Cpp.gt (Cpp.abs (leftYstick hw)) 0.01 = false ->
  allCommands (snd (run (repeat hw (S n)) r))
  = commands (snd (TeleopPeriodic hw r)) /\
  arbiterState (fst (run (repeat hw (S n)) r))
  = arbiterState (fst (TeleopPeriodic hw r)).
Proof.
  intros Hy.
  destruct (tick_lastButtons hw r) as (B1 & B2 & B3).
  destruct (run_held hw n Hy (fst (TeleopPeriodic hw r)) B1 B2 B3)
    as (C & A).
  simpl repeat. rewrite run_cons. cbn [fst snd].
  rewrite allCommands_cons, C, app_nil_r, A. split; reflexivity.
Qed.

Lemma held_sample_acts_once_witness :
  let hw := pressed false true false false (released 0 0) in
  Cpp.gt (Cpp.abs (leftYstick hw)) 0.01 = false /\
  allCommands (snd (run (repeat hw 25) (Robot_new 0))) = [9600%float].
Proof.
  intros hw. split; [reflexivity|].
  exact (proj1 (held_sample_acts_once hw 24 (Robot_new 0) eq_refl)).
Defined.

(** X5: a button whose stored flag is set has no say in a tick: two samples
    with the same axis and feedback, whose preset buttons differ only where
    the flag is already set, give the same events, the same target and the
    same controller. So a press that lost to a higher button in the tick it
    began is never served by being held on. *)
Theorem held_button_inert (a b : Sample) (r : Robot) :
  sameReadings a b ->
  (_lastButton1 r = true \/ rawButton1 a = rawButton1 b) ->
  (_lastButton2 r = true \/ rawButton2 a = rawButton2 b) ->
  (_lastButton3 r = true \/ rawButton3 a = rawButton3 b) ->
  snd (TeleopPeriodic a r) = snd (TeleopPeriodic b r) /\
  targetPositionRotations (fst (TeleopPeriodic a r))
  = targetPositionRotations (fst (TeleopPeriodic b r)) /\
  _talon_right (fst (TeleopPeriodic a r))
  = _talon_right (fst (TeleopPeriodic b r)).
Proof.
  intros (Ax & Mo & Pp & Ps & Ce) H1 H2 H3.
  assert (S : servo a r = servo b r).
  { unfold servo, leftYstick. rewrite Ax, Ps.
    destruct H1 as [-> | ->], H2 as [-> | ->], H3 as [-> | ->];
      reflexivity. }
  rewrite !tick_events, !tick_target, !tick_talon, S.
  unfold lineHead, lineServo. rewrite Mo, Pp, Ce. repeat split.
Qed.

Lemma held_button_inert_witness :
  let r := fst (TeleopPeriodic (pressed true true false false (released 0 0))
                               (Robot_new 0)) in
  let a := pressed true true false false (released 0 40) in
  let b := pressed true false false false (released 0 40) in
  targetPositionRotations r = 4800%float /\
  snd (TeleopPeriodic a r) = [] /\
  snd (TeleopPeriodic a r) = snd (TeleopPeriodic b r).
Proof.
  intros r a b. split; [reflexivity|]. split; [reflexivity|].
  refine (proj1 (held_button_inert a b r _ _ _ _)).
  - repeat split.
  - left; reflexivity.
  - left; reflexivity.
  - right; reflexivity.
Defined.

(** ** The deadband and the target as binary64 values *)

Section Binary64.

Local Open Scope float_scope.

Local Ltac b64_trivial := intros; first [ reflexivity | discriminate ].
Local Ltac b64_step := cbv beta iota delta [CompOpp orb].
Local Ltac b64_const x :=
  let c := fresh "c" in set (c := Prim2SF x); vm_compute in c; subst c.

Lemma compare_cont_Eq_swap (p q : positive) :
  Pos.compare_cont Eq q p = CompOpp (Pos.compare_cont Eq p q).
Proof. rewrite Pos.compare_cont_antisym. reflexivity. Qed.

(** The test of line 117 passes exactly below -0.01 and above 0.01. *)
Lemma deadband_sides (y : float) :
  Cpp.gt (Cpp.abs y) 0.01 = (y <? -0.01) || (0.01 <? y).
Proof.
  unfold Cpp.gt, Cpp.abs. rewrite !ltb_spec, abs_spec.
  b64_const 0.01. b64_const (-0.01).
  destruct (Prim2SF y) as [s|s| |s m e]; try (destruct s);
    unfold SFltb, SFcompare, SFabs; try b64_trivial;
    rewrite ?(Z.compare_antisym e (-59)%Z);
    destruct (e ?= -59)%Z; b64_step; try b64_trivial;
    rewrite ?(compare_cont_Eq_swap m 5764607523034235);
    destruct (Pos.compare_cont Eq m 5764607523034235); b64_step;
    b64_trivial.
Qed.

Lemma is_nan_unique (t : float) : is_nan t = true -> t = nan.
Proof.
  unfold is_nan. rewrite eqb_spec. intros H. apply Prim2SF_inj.
  change (Prim2SF nan) with S754_nan. revert H.
  destruct (Prim2SF t) as [s|s| |s m e]; try (destruct s);
    unfold SFeqb, SFcompare; try b64_trivial;
    rewrite Z.compare_refl, Pos.compare_cont_refl; b64_trivial.
Qed.

Lemma nan_ltb_l (b : float) : (nan <? b) = false.
Proof. rewrite ltb_spec. reflexivity. Qed.

Lemma nan_ltb_r (b : float) : (b <? nan) = false.
Proof.
  rewrite ltb_spec. change (Prim2SF nan) with S754_nan.
  destruct (Prim2SF b) as [s|s| |s m e]; reflexivity.
Qed.

Lemma nan_add_r (a : float) : a + nan = nan.
Proof.
  apply Prim2SF_inj. rewrite add_spec. change (Prim2SF nan) with S754_nan.
  destruct (Prim2SF a) as [s|s| |s m e]; reflexivity.
Qed.

(** A NaN target is never strictly outside any window. *)
Lemma outsideWindow_nan (cur : Z) : outsideWindow nan cur = false.
Proof.
  unfold outsideWindow, Cpp.gt.
  change (nan - 50) with nan. change (nan + 50) with nan.
  rewrite nan_ltb_l, nan_ltb_r. reflexivity.
Qed.

End Binary64.

(** X6: in a tick without a rising preset button a command is sent exactly
    when the stick value is below -0.01 or above 0.01: the deadband is the
    closed interval, both ends included, and a NaN axis commands nothing. *)
Theorem deadband_closed (hw : Sample) (r : Robot) :
  presetEdge hw r = false ->
  let y := leftYstick hw in
  (commands (snd (TeleopPeriodic hw r)) <> []
   <-> ((y <? -0.01) || (0.01 <? y))%float = true) /\
  (y = 0.01%float \/ y = (-0.01)%float \/ is_nan y = true ->
   commands (snd (TeleopPeriodic hw r)) = [] /\
   targetPositionRotations (fst (TeleopPeriodic hw r))
   = targetPositionRotations r).
Proof.
  intros He y.
  assert (S := servo_joystick hw r He).
  rewrite deadband_sides in S. fold y in S.
  rewrite tick_commands, tick_target, S.
  split.
  - destruct ((y <? -0.01) || (0.01 <? y))%float; cbv zeta; cbn [fst snd].
    + split; [reflexivity| intros _; discriminate].
    + split; [intros H; contradiction H; reflexivity | discriminate].
  - assert (Z : y = 0.01%float \/ y = (-0.01)%float \/ is_nan y = true ->
                ((y <? -0.01) || (0.01 <? y))%float = false).
    { intros [-> | [-> | N]]; try reflexivity.
      rewrite (is_nan_unique y N). reflexivity. }
    intros H. rewrite (Z H). split; reflexivity.
Qed.

Lemma deadband_closed_witness :
  let r := Robot_new 500 in
  commands (snd (TeleopPeriodic (released 0.01 500) r)) = [] /\
  commands (snd (TeleopPeriodic (released 0.0101 500) r)) <> [].
Proof.
  intros r. split.
  - destruct (deadband_closed (released 0.01 500) r eq_refl) as [_ P].
    refine (proj1 (P _)). right. left. reflexivity.
  - destruct (deadband_closed (released 0.0101 500) r eq_refl) as [P _].
    apply P. reflexivity.
Defined.

(** A tick without a rising preset button on a NaN target: whatever is sent
    is NaN and the target stays NaN. *)
Lemma tick_nan (hw : Sample) (r : Robot) :
  presetEdge hw r = false ->
  is_nan (targetPositionRotations r) = true ->
  is_nan (targetPositionRotations (fst (TeleopPeriodic hw r))) = true /\
  Forall (fun c => is_nan c = true) (commands (snd (TeleopPeriodic hw r))).
Proof.
  intros He Hn. pose proof (is_nan_unique _ Hn) as E.
  rewrite tick_target, tick_commands, (servo_joystick hw r He), E.
  rewrite outsideWindow_nan, nan_add_r.
  destruct (Cpp.gt (Cpp.abs (leftYstick hw)) 0.01); cbv zeta; cbn [fst snd].
  - split; [reflexivity|]. repeat constructor.
  - split; [reflexivity|]. constructor.
Qed.

(** X7: a target that is NaN (the field is never initialised, so it may be)
    cannot be repaired with the stick: as long as no preset button is
    pressed, after any number of ticks the target is still NaN and every
    command that was sent is NaN. *)
Theorem nan_target_persists (hws : list Sample) (r : Robot) :
  is_nan (targetPositionRotations r) = true ->
  forallb noPreset hws = true ->
  is_nan (targetPositionRotations (fst (run hws r))) = true /\
  Forall (fun c => is_nan c = true) (allCommands (snd (run hws r))).
Proof.
  revert r. induction hws as [|hw rest IH]; intros r Hn H.
  - split; [exact Hn | constructor].
  - simpl in H. apply andb_true_iff in H. destruct H as [Hh Hr].
    destruct (tick_nan hw r (noPreset_edge hw r Hh) Hn) as [N1 F1].
    destruct (IH _ N1 Hr) as [N2 F2].
    rewrite run_cons. cbn [fst snd]. rewrite allCommands_cons.
    split; [exact N2|]. apply Forall_app. split; assumption.
Qed.

Lemma nan_target_persists_witness :
  let hws := [released 1 100; released 0 100; released (-0.5) 3000] in
  let out := run hws (Robot_new nan) in
  is_nan (targetPositionRotations (fst out)) = true /\
  allCommands (snd out) = [nan; nan].
Proof.
  intros hws out. split; [|reflexivity].
  exact (proj1 (nan_target_persists hws (Robot_new nan) eq_refl eq_refl)).
Defined.

(** ** How many lines a run prints *)

Lemma run_line_count (hws : list Sample) :
  forall r, (0 <= _loops r < 10)%Z ->
  Z.of_nat (List.length (allLines (snd (run hws r))))
  = ((_loops r + Z.of_nat (List.length hws)) / 10)%Z.
Proof.
  induction hws as [|hw rest IH]; intros r Hr.
  - simpl. rewrite Z.add_0_r, Z.div_small; lia.
  - rewrite run_cons. cbn [snd]. rewrite allLines_cons, length_app.
    pose proof (tick_loops hw r) as L.
    assert (Hr1 : (0 <= _loops (fst (TeleopPeriodic hw r)) < 10)%Z).
    { rewrite L. destruct (Z.leb_spec 10 (_loops r + 1)); lia. }
    rewrite Nat2Z.inj_add, (IH _ Hr1), L, tick_lines.
    change (List.length (hw :: rest)) with (S (List.length rest)).
    rewrite Nat2Z.inj_succ.
    destruct (Z.leb_spec 10 (_loops r + 1)).
    + change (Z.of_nat (List.length [_])) with 1%Z.
      replace (_loops r) with 9%Z by lia.
      replace (9 + Z.succ (Z.of_nat (List.length rest)))%Z
        with (0 + Z.of_nat (List.length rest) + 1 * 10)%Z by lia.
      rewrite Z.div_add by lia. lia.
    + change (Z.of_nat (List.length (@nil (list Piece)))) with 0%Z.
      rewrite Z.add_0_l. f_equal. lia.
Qed.

Lemma run_line_sizes (hws : list Sample) :
  forall r, _sb r = [] ->
  Forall (fun l => List.length l = 4%nat \/ List.length l = 8%nat)
         (allLines (snd (run hws r))).
Proof.
  induction hws as [|hw rest IH]; intros r Hs.
  - constructor.
  - rewrite run_cons. cbn [snd]. rewrite allLines_cons.
    apply Forall_app. split; [|apply IH, tick_sb].
    rewrite tick_lines, Hs.
    destruct (10 <=? _loops r + 1)%Z; [|constructor].
    constructor; [|constructor].
    destruct (ControlMode_eqb _ Position); [right | left]; reflexivity.
Qed.

(** X8: counted over a whole run that starts with the counter at 0 and the
    line empty, n ticks print n / 10 lines, rounded down, and each line has
    four fragments or, with the position-mode part, eight: nothing of an
    earlier tick is left in a line. *)
Theorem telemetry_line_count (hws : list Sample) (r : Robot) :
  _loops r = 0%Z ->
  _sb r = [] ->
  Z.of_nat (List.length (allLines (snd (run hws r))))
  = (Z.of_nat (List.length hws) / 10)%Z /\
  Forall (fun l => List.length l = 4%nat \/ List.length l = 8%nat)
         (allLines (snd (run hws r))).
Proof.
  intros Hl Hs. split.
  - rewrite run_line_count by lia. rewrite Hl. reflexivity.
  - apply run_line_sizes, Hs.
Qed.

Lemma telemetry_line_count_witness :
  let hws := repeat (released (-1) 0) 35 in
  List.length (allLines (snd (run hws (Robot_new 0)))) = 3%nat.
Proof.
  intros hws. apply Nat2Z.inj.
  exact (proj1 (telemetry_line_count hws (Robot_new 0) eq_refl eq_refl)).
Defined.

(** ** The neutral deadband configured by [RobotInit] *)

Section Truncation.

Local Open Scope float_scope.

Lemma digits2_pos_bound (m : positive) :
  (Zpos m < 2 ^ Zpos (digits2_pos m))%Z.
Proof.
  induction m as [m IH|m IH|]; simpl digits2_pos;
    rewrite ?Pos2Z.inj_succ, ?Z.pow_succ_r by lia; lia.
Qed.

(** The mantissa of a binary64 value has at most 53 bits. *)
Lemma mantissa_bound (x : float) (s : bool) (m : positive) (e : Z) :
  Prim2SF x = S754_finite s m e -> (Zpos m < 2 ^ 53)%Z.
Proof.
  intros E. pose proof (Prim2SF_valid x) as V. rewrite E in V.
  unfold SpecFloat.valid_binary, bounded, canonical_mantissa, fexp in V.
  apply andb_true_iff in V. destruct V as [V _].
  apply Z.eqb_eq in V.
  pose proof (digits2_pos_bound m) as B.
  assert (D : (Zpos (digits2_pos m) <= 53)%Z).
  { unfold prec, emin, emax in V. lia. }
  eapply Z.lt_le_trans; [exact B|].
  apply Z.pow_le_mono_r; lia.
Qed.

(** A double strictly between -1 and 1 converts to the [int] 0. *)
Lemma double_to_int_fraction (x : float) :
  (PrimFloat.abs x <? 1) = true -> Cpp.double_to_int x = 0%Z.
Proof.
  rewrite ltb_spec, abs_spec. unfold Cpp.double_to_int.
  set (c := Prim2SF 1); vm_compute in c; subst c.
  destruct (Prim2SF x) as [s|s| |s m e] eqn:E; try reflexivity.
  pose proof (mantissa_bound x s m e E) as B.
  unfold SFabs, SFltb, SFcompare.
  destruct (Z.compare_spec e (-52)) as [He|He|He]; try discriminate.
  - subst e. rewrite Z.shiftr_div_pow2 by lia.
    destruct (Pos.compare_cont Eq m 4503599627370496) eqn:C;
      try discriminate.
    intros _.
    assert (C' : (Z.pos m < 4503599627370496)%Z)
      by (apply Pos2Z.pos_lt_pos; exact C).
    change (2 ^ Z.pos 52)%Z with 4503599627370496%Z.
    rewrite Z.div_small by lia. destruct s; reflexivity.
  - intros _. destruct e as [|p|p]; try lia.
    rewrite Z.shiftr_div_pow2 by lia.
    assert (P : (2 ^ 53 <= 2 ^ Zpos p)%Z) by (apply Z.pow_le_mono_r; lia).
    rewrite Z.div_small by lia. destruct s; reflexivity.
Qed.

End Truncation.

(** X9: [_deadBand] is an [int] member initialised from the double [.1].
    Converting any double strictly between -1 and 1 to [int] gives 0, so an
    object whose [_deadBand] was initialised from such a value, as the
    constructed one is, makes [RobotInit] configure a neutral deadband of
    0.0 and not the fraction written in the initialiser. *)
Theorem neutral_deadband_is_zero
        (x : float) (r : Robot) (pid tmo : Z) :
  (PrimFloat.abs x <? 1)%float = true ->
  _deadBand r = Cpp.double_to_int x ->
  In (TalonConfig "ConfigNeutralDeadband" [Dbl 0%float; Int tmo])
     (snd (RobotInit pid tmo r)) /\
  (forall t0, _deadBand (Robot_new t0) = Cpp.double_to_int 0.1%float).
Proof.
  intros Hx Hd. split; [|reflexivity].
  unfold RobotInit. cbn [snd].
  rewrite Hd, (double_to_int_fraction x Hx).
  change (Cpp.int_to_double 0) with 0%float.
  do 13 right. left. reflexivity.
Qed.

Lemma neutral_deadband_is_zero_witness :
  (PrimFloat.abs 0.1 <? 1)%float = true /\
  In (TalonConfig "ConfigNeutralDeadband" [Dbl 0%float; Int 10])
     (snd (RobotInit 0 10 (Robot_new 0))).
Proof.
  split; [reflexivity|].
  exact (proj1 (neutral_deadband_is_zero 0.1 (Robot_new 0) 0 10
                  eq_refl eq_refl)).
Defined.

(** ** The target shown in the telemetry *)

Lemma run_firstn_succ (hws : list Sample) :
  forall r k hw, nth_error hws k = Some hw ->
  run (firstn (S k) hws) r
  = (fst (TeleopPeriodic hw (fst (run (firstn k hws) r))),
     snd (run (firstn k hws) r)
     ++ [snd (TeleopPeriodic hw (fst (run (firstn k hws) r)))]).
Proof.
  induction hws as [|h rest IH]; intros r k hw Hk.
  - destruct k; discriminate Hk.
  - destruct k as [|k].
    + simpl in Hk. injection Hk as ->.
      change (firstn 1 (hw :: rest)) with [hw].
      rewrite run_cons. reflexivity.
    + simpl in Hk.
      change (firstn (S (S k)) (h :: rest)) with (h :: firstn (S k) rest).
      change (firstn (S k) (h :: rest)) with (h :: firstn k rest).
      rewrite !run_cons, (IH _ _ _ Hk). reflexivity.
Qed.

(** X10: in a run from the object as constructed and initialised, a line
    printed in tick k + 1 shows the servo part exactly when some command was
    sent in the first k + 1 ticks, and the target it shows is then the last
    command sent so far; otherwise the line is the head alone. *)
Theorem telemetry_shows_last_command
        (t0 : float) (pid tmo : Z) (hws : list Sample)
        (k : nat) (hw : Sample) (l : list Piece) :
  nth_error hws k = Some hw ->
  let r0 := fst (RobotInit pid tmo (Robot_new t0)) in
  let cs := allCommands (snd (run (firstn (S k) hws) r0)) in
  In (Printf l) (nth k (snd (run hws r0)) []) ->
  (cs = [] /\ l = lineHead hw)
  \/ (cs <> [] /\ l = lineHead hw ++ lineServo hw (last cs 0%float)).
Proof.
  intros Hk r0 cs Hin.
  rewrite (nth_error_nth _ _ _ (run_nth hws r0 k hw Hk)) in Hin.
  set (rk := fst (run (firstn k hws) r0)) in *.
  assert (Hsb : _sb rk = []) by (apply run_sb; reflexivity).
  assert (Hfin : fst (run (firstn (S k) hws) r0)
                 = fst (TeleopPeriodic hw rk))
    by (rewrite (run_firstn_succ hws r0 k hw Hk); reflexivity).
  rewrite tick_events, Hsb in Hin. apply in_app_or in Hin.
  destruct Hin as [Hin | Hin].
  - exfalso. destruct (servo_cases hw rk) as [E | [v E]];
      rewrite E in Hin; cbn [snd] in Hin.
    + destruct Hin.
    + destruct Hin as [X | []]. discriminate X.
  - destruct (10 <=? _loops rk + 1)%Z; [|destruct Hin].
    destruct Hin as [X | []]. injection X as X.
    rewrite <- tick_talon, <- tick_target, <- Hfin in X.
    destruct (run_command_cases (firstn (S k) hws) r0)
      as [(C & _ & L) | (C & T & L)].
    + left. split; [exact C|]. rewrite L in X. simpl in X.
      rewrite ?app_nil_r in X. symmetry. exact X.
    + right. split; [exact C|]. rewrite L, T in X. symmetry. exact X.
Qed.

Lemma telemetry_shows_last_command_witness :
  let hws := [pressed true false false false (released 0 0)]
             ++ repeat (released 0 100) 7
             ++ [released (-1) 4800; released 0 4900] in
  let hw := released 0 4900 in
  let l := lineHead hw ++ lineServo hw 4950 in
  In (Printf l) (nth 9 (snd (run hws (fst (RobotInit 0 0 (Robot_new 1)))))
                     []) /\
  l = lineHead hw
      ++ lineServo hw
           (last (allCommands
                    (snd (run (firstn 10 hws)
                              (fst (RobotInit 0 0 (Robot_new 1))))))
                 0%float).
Proof.
  intros hws hw l.
  assert (I : In (Printf l)
                 (nth 9 (snd (run hws (fst (RobotInit 0 0 (Robot_new 1)))))
                      [])) by (left; reflexivity).
  split; [exact I|].
  destruct (telemetry_shows_last_command 1 0 0 hws 9 hw l eq_refl I)
    as [[C _] | [_ E]].
  - discriminate C.
  - exact E.
Defined.
